(** * flocker: snapshot coordination and node provisioning

    A shallow embedding of [flocker/snapshots.py] (the [ChangeSnapshotter]
    state machine, driven through the [machinist] library) and of
    [flocker/provision/_install.py] (the provisioning command recipe), with
    the properties of both stated over the embedding. *)

From Stdlib Require Import ZArith List String Ascii Bool Lia.
Import ListNotations.

Local Open Scope Z_scope.
Local Open Scope list_scope.

(** ** Python dictionaries with few keys, as insertion-ordered association lists *)

Module Dict.
Section Dict.
Context {K V : Type}.
Variable K_eq_dec : forall x y : K, {x = y} + {x <> y}.

Fixpoint get (k : K) (d : list (K * V)) : option V :=
  match d with
  | [] => None
  | (k', v) :: d' => if K_eq_dec k k' then Some v else get k d'
  end.

(** [d[k] = v]: overwrite in place, or append a new key. *)
Fixpoint set (k : K) (v : V) (d : list (K * V)) : list (K * V) :=
  match d with
  | [] => [(k, v)]
  | (k', v') :: d' =>
      if K_eq_dec k k' then (k, v) :: d' else (k', v') :: set k v d'
  end.
End Dict.
End Dict.

(** ** machinist: transition tables and the finite state machine *)

Module Machinist.
Section FSM.
Variables State Input Output : Type.
Variable State_eq_dec : forall x y : State, {x = y} + {x <> y}.
Variable Input_eq_dec : forall x y : Input, {x = y} + {x <> y}.

Record Transition := mkTransition
  { output : list Output; nextState : State }.

(** [TransitionTable.table]: state -> input -> transition. *)
Definition TransitionTable := list (State * list (Input * Transition)).

Definition emptyTable : TransitionTable := [].

(** [TransitionTable.addTransitions(state, transitions)]: the row of
    [state] is created when missing ([setdefault]) and every given
    transition is stored in it. *)
Definition addTransitions (table : TransitionTable) (state : State)
    (transitions : list (Input * (list Output * State))) : TransitionTable :=
  let row :=
    match Dict.get State_eq_dec state table with
    | Some r => r
    | None => []
    end in
  let row' :=
    fold_left
      (fun r t => Dict.set Input_eq_dec (fst t)
                    (mkTransition (fst (snd t)) (snd (snd t))) r)
      transitions row in
  Dict.set State_eq_dec state row' table.

Inductive Exception :=
| IllegalInput (input : Input)
| KeyError (state : State).

(** [_FiniteStateMachine.receive]: the transition of the current state
    for [input], or [IllegalInput] when the input is no constant of the
    machine's inputs or the current state has no transition for it. The
    state changes only when a transition is found. *)
Definition receive (inputs : list Input) (table : TransitionTable)
    (state : State) (input : Input)
    : Exception + (list Output * State) :=
  match Dict.get State_eq_dec state table with
  | None => inl (KeyError state)
  | Some current =>
      if negb (existsb (fun i => if Input_eq_dec input i then true else false)
                       inputs)
      then inl (IllegalInput input)
      else
        match Dict.get Input_eq_dec input current with
        | None => inl (IllegalInput input)
        | Some transition =>
            inr (output transition, nextState transition)
        end
  end.
End FSM.

Arguments mkTransition {State Output}.
Arguments output {State Output}.
Arguments nextState {State Output}.
Arguments emptyTable {State Input Output}.
Arguments addTransitions {State Input Output}.
Arguments IllegalInput {State Input}.
Arguments KeyError {State Input}.
Arguments receive {State Input Output}.
End Machinist.

(** ** flocker/snapshots.py *)

Module Snapshots.

(** [pytz] time zones, as far as the module names them. *)
Inductive tzinfo := UTC | FixedOffset (minutes : Z).

(** An aware [datetime]: the instant (seconds since the epoch) and the zone
    it is expressed in. *)
Record datetime := mkdatetime { posix : Z; tz : tzinfo }.

Definition datetime_fromtimestamp (t : Z) (zone : tzinfo) : datetime :=
  {| posix := t; tz := zone |}.

Record SnapshotName := mkSnapshotName
  { timestamp : datetime; node : string }.

Inductive _Inputs := FILESYSTEM_CHANGED.
Inductive _Outputs := START_SNAPSHOT.
Inductive _States := IDLE | SNAPSHOTTING.

Definition _Inputs_eq_dec (x y : _Inputs) : {x = y} + {x <> y}.
Proof. decide equality. Defined.

Definition _States_eq_dec (x y : _States) : {x = y} + {x <> y}.
Proof. decide equality. Defined.

Definition _Inputs_iterconstants : list _Inputs := [FILESYSTEM_CHANGED].

Definition _transitions
  : Machinist.TransitionTable _States _Inputs _Outputs :=
  let t0 := Machinist.emptyTable in
  let t1 :=
    Machinist.addTransitions _States_eq_dec _Inputs_eq_dec t0 IDLE
      [(FILESYSTEM_CHANGED, ([START_SNAPSHOT], SNAPSHOTTING))] in
  Machinist.addTransitions _States_eq_dec _Inputs_eq_dec t1 SNAPSHOTTING [].

(** The reactor clock ([IReactorTime]): its current reading in seconds, and
    the delays of the calls registered with [callLater] that are still
    pending. *)
Record Clock := mkClock { seconds : Z; delayedCalls : list Z }.

(** The snapshot provider ([IFilesystemSnapshots]), observed through the
    [create] calls it has received, oldest first. *)
Record FilesystemSnapshots := mkFs { created : list SnapshotName }.

(** A [ChangeSnapshotter] with its collaborators. [_fsm] is the current
    state of the machine built by [constructFiniteStateMachine] with
    [initial=_States.IDLE]. *)
Record ChangeSnapshotter := mkChangeSnapshotter
  { _name : string;
    _clock : Clock;
    _fsSnapshots : FilesystemSnapshots;
    _fsm : _States }.

Definition Exception := Machinist.Exception _States _Inputs.

(** Methods run on the object and either return or raise. *)
Definition M (A : Type) : Type :=
  ChangeSnapshotter -> ChangeSnapshotter * (Exception + A).

Definition ret {A} (a : A) : M A := fun self => (self, inr a).
Definition raise {A} (e : Exception) : M A := fun self => (self, inl e).
Definition bind {A B} (c : M A) (k : A -> M B) : M B :=
  fun self =>
    match c self with
    | (self', inl e) => (self', inl e)
    | (self', inr a) => k a self'
    end.

Notation "x <- c ;; k" := (bind c (fun x => k))
  (at level 61, c at next level, right associativity).
Notation "c ;;; k" := (bind c (fun _ => k))
  (at level 61, right associativity).

Definition get_self : M ChangeSnapshotter := fun self => (self, inr self).

Definition set_fsm (s : _States) : M unit :=
  fun self =>
    ({| _name := _name self; _clock := _clock self;
        _fsSnapshots := _fsSnapshots self; _fsm := s |}, inr tt).

(** [self._clock.seconds()] *)
Definition clock_seconds : M Z :=
  fun self => (self, inr (seconds (_clock self))).

(** [self._fsSnapshots.create(name)]; the Deferred it returns is dropped by
    the only caller. *)
Definition fsSnapshots_create (name : SnapshotName) : M unit :=
  fun self =>
    ({| _name := _name self; _clock := _clock self;
        _fsSnapshots := {| created := created (_fsSnapshots self) ++ [name] |};
        _fsm := _fsm self |}, inr tt).

Definition output_START_SNAPSHOT : M unit :=
  self <- get_self ;;
  now <- clock_seconds ;;
  let name := mkSnapshotName (datetime_fromtimestamp now UTC) (_name self) in
  fsSnapshots_create name.

(** [MethodSuffixOutputer.output]: the method named after the output. *)
Definition world_output (o : _Outputs) : M unit :=
  match o with
  | START_SNAPSHOT => output_START_SNAPSHOT
  end.

Fixpoint run_outputs (os : list _Outputs) : M unit :=
  match os with
  | [] => ret tt
  | o :: os' => world_output o ;;; run_outputs os'
  end.

(** [self._fsm.receive(input)]: the machine moves to the next state, then
    the outputs of the transition run in order. *)
Definition fsm_receive (input : _Inputs) : M unit :=
  self <- get_self ;;
  match Machinist.receive _States_eq_dec _Inputs_eq_dec
          _Inputs_iterconstants _transitions (_fsm self) input with
  | inl e => raise e
  | inr (outputs, next) => set_fsm next ;;; run_outputs outputs
  end.

Definition filesystemChanged : M unit := fsm_receive FILESYSTEM_CHANGED.

(** [ChangeSnapshotter(name, clock, fsSnapshots)] *)
Definition init (name : string) (clock : Clock) (fs : FilesystemSnapshots)
    : ChangeSnapshotter :=
  {| _name := name; _clock := clock; _fsSnapshots := fs; _fsm := IDLE |}.

(** *** What happens around the object

    The watcher calls [filesystemChanged]; the reactor clock advances; the
    Deferred returned by a [create] call fires with a result or a failure.
    [output_START_SNAPSHOT] adds no callback to that Deferred and registers
    no delayed call, so only the first kind of event runs code of the
    object. *)
Inductive Event :=
| filesystem_changed
| clock_advance (amount : Z)
| snapshot_succeeded
| snapshot_failed.

(** The events that are no change notification. *)
Definition quiet (ev : Event) : bool :=
  match ev with
  | filesystem_changed => false
  | _ => true
  end.

(** [Clock.advance(amount)]: the reading moves on and the delayed calls
    that are due leave the pending list. *)
Definition Clock_advance (amount : Z) (c : Clock) : Clock :=
  {| seconds := seconds c + amount;
     delayedCalls :=
       map (fun d => d - amount)
           (filter (fun d => amount <? d) (delayedCalls c)) |}.

Definition react (ev : Event) : M unit :=
  match ev with
  | filesystem_changed => filesystemChanged
  | clock_advance amount =>
      fun self =>
        ({| _name := _name self; _clock := Clock_advance amount (_clock self);
            _fsSnapshots := _fsSnapshots self; _fsm := _fsm self |}, inr tt)
  | snapshot_succeeded => ret tt
  | snapshot_failed => ret tt
  end.

(** The object after a sequence of events; an exception raised by one call
    goes to that caller and the object lives on. *)
Fixpoint run (self : ChangeSnapshotter) (evs : list Event)
    : ChangeSnapshotter :=
  match evs with
  | [] => self
  | ev :: evs' => run (fst (react ev self)) evs'
  end.

(** The result of each event of the sequence, in order. *)
Fixpoint results (self : ChangeSnapshotter) (evs : list Event)
    : list (Exception + unit) :=
  match evs with
  | [] => []
  | ev :: evs' =>
      snd (react ev self) :: results (fst (react ev self)) evs'
  end.

(** Attempts started and not yet resolved, counted along a run: every
    [create] call starts one, every firing of a Deferred resolves one. *)
Definition resolves (ev : Event) : nat :=
  match ev with
  | snapshot_succeeded | snapshot_failed => 1
  | _ => 0
  end.

Definition started (self : ChangeSnapshotter) (ev : Event) : nat :=
  (List.length (created (_fsSnapshots (fst (react ev self))))
   - List.length (created (_fsSnapshots self)))%nat.

Fixpoint outstanding (n : nat) (self : ChangeSnapshotter)
    (evs : list Event) : list nat :=
  match evs with
  | [] => []
  | ev :: evs' =>
      let n' := ((n - resolves ev) + started self ev)%nat in
      n' :: outstanding n' (fst (react ev self)) evs'
  end.

(** The coordinator of the end-to-end scenarios: node ["node1"], a clock
    that reads [0] with no delayed call, a provider that has seen no call. *)
Definition node1 : ChangeSnapshotter :=
  init "node1" (mkClock 0 []) (mkFs []).

End Snapshots.

(** ** Python string helpers used by the provisioning module *)

Module Py.
Local Open Scope string_scope.

Definition nl : string := String (ascii_of_nat 10) EmptyString.
Definition dquote : string := String (ascii_of_nat 34) EmptyString.

Definition is_empty (s : string) : bool :=
  match s with EmptyString => true | String _ _ => false end.

(** Truth value of an attribute that is [None] or a byte string. *)
Definition truthy (o : option string) : bool :=
  match o with
  | None => false
  | Some s => negb (is_empty s)
  end.

(** [sep.join(parts)] *)
Fixpoint join (sep : string) (parts : list string) : string :=
  match parts with
  | [] => EmptyString
  | [p] => p
  | p :: ps => p ++ sep ++ join sep ps
  end.

Definition startswith (s p : string) : bool := String.prefix p s.

Fixpoint endswith_char (s : string) (c : ascii) : bool :=
  match s with
  | EmptyString => false
  | String a EmptyString => Ascii.eqb a c
  | String _ s' => endswith_char s' c
  end.

(** [s.replace(old, new)] for a one-character [old]. *)
Fixpoint replace_char (old : ascii) (new : string) (s : string) : string :=
  match s with
  | EmptyString => EmptyString
  | String c s' =>
      if Ascii.eqb c old then new ++ replace_char old new s'
      else String c (replace_char old new s')
  end.

(** [template % (arg,)] for a template whose only conversion is one [%s]. *)
Fixpoint percent_s (template arg : string) : string :=
  match template with
  | String "%" (String "s" rest) => arg ++ rest
  | String c rest => String c (percent_s rest arg)
  | EmptyString => EmptyString
  end.

Inductive Error := AttributeError (attribute : string).

(** [posixpath.join(a, *p)]; a component that is [None] has no
    [startswith]. *)
Fixpoint posixpath_join (path : string) (p : list (option string))
    : Error + string :=
  match p with
  | [] => inr path
  | None :: _ => inl (AttributeError "startswith")
  | Some b :: p' =>
      if startswith b "/" then posixpath_join b p'
      else if is_empty path || endswith_char path "/"
      then posixpath_join (path ++ b) p'
      else posixpath_join (path ++ "/" ++ b) p'
  end.

(** *** [pipes.quote] *)

Definition ascii_letters : string :=
  "abcdefghijklmnopqrstuvwxyzABCDEFGHIJKLMNOPQRSTUVWXYZ".
Definition digits : string := "0123456789".
Definition _safechars : string := ascii_letters ++ digits ++ "@%_-+=:,./".

Fixpoint mem_char (c : ascii) (s : string) : bool :=
  match s with
  | EmptyString => false
  | String a s' => Ascii.eqb c a || mem_char c s'
  end.

Fixpoint all_safe (s : string) : bool :=
  match s with
  | EmptyString => true
  | String c s' => mem_char c _safechars && all_safe s'
  end.

Definition shell_quote (file : string) : string :=
  if all_safe file then
    if is_empty file then "''" else file
  else
    "'" ++ replace_char "'" ("'" ++ dquote ++ "'" ++ dquote ++ "'") file ++ "'".

(** *** [textwrap.dedent] *)

Definition is_blank (c : ascii) : bool :=
  Ascii.eqb c " " || Ascii.eqb c (ascii_of_nat 9).

(** The lines of a text, without their line ends. *)
Fixpoint splitlines_aux (cur : string) (s : string) : list string :=
  match s with
  | EmptyString => [cur]
  | String c s' =>
      if Ascii.eqb c (ascii_of_nat 10) then cur :: splitlines_aux EmptyString s'
      else splitlines_aux (cur ++ String c EmptyString) s'
  end.

Definition lines (s : string) : list string := splitlines_aux EmptyString s.

Fixpoint all_blank (s : string) : bool :=
  match s with
  | EmptyString => true
  | String c s' => is_blank c && all_blank s'
  end.

Fixpoint indent_of (s : string) : string :=
  match s with
  | String c s' => if is_blank c then String c (indent_of s') else EmptyString
  | EmptyString => EmptyString
  end.

Fixpoint drop (n : nat) (s : string) : string :=
  match n, s with
  | O, _ => s
  | S n', String _ s' => drop n' s'
  | S _, EmptyString => EmptyString
  end.

(** The common margin of the indents seen so far ([None]: none seen). *)
Fixpoint margin_of (margin : option string) (indents : list string)
    : option string :=
  match indents with
  | [] => margin
  | indent :: rest =>
      match margin with
      | None => margin_of (Some indent) rest
      | Some m =>
          if startswith indent m then margin_of margin rest
          else if startswith m indent then margin_of (Some indent) rest
          else Some EmptyString
      end
  end.

Definition dedent (text : string) : string :=
  let ls := map (fun l => if all_blank l then EmptyString else l) (lines text) in
  let indents := map indent_of (filter (fun l => negb (is_empty l)) ls) in
  match margin_of None indents with
  | None => join nl ls
  | Some margin =>
      join nl
        (map (fun l => if startswith l margin
                       then drop (String.length margin) l else l) ls)
  end.

(** *** How the shell reads a command line back

    Word splitting of [/bin/sh] for the forms [pipes.quote] writes: words
    are separated by spaces; outside quotes only the safe characters stand
    for themselves; between single quotes every character does; between
    double quotes every character but the backslash, the dollar and the
    backquote does. [None] is a line that uses anything else or ends inside
    quotes. *)
Inductive sh_mode := Unquoted | SingleQuoted | DoubleQuoted.

Definition word_so_far (word : option string) : string :=
  match word with
  | Some w => w
  | None => EmptyString
  end.

Definition push (word : option string) (c : ascii) : option string :=
  Some (word_so_far word ++ String c EmptyString).

Fixpoint sh_scan (mode : sh_mode) (word : option string) (s : string)
    : option (list string) :=
  match s with
  | EmptyString =>
      match mode with
      | Unquoted =>
          Some match word with
               | Some w => [w]
               | None => []
               end
      | _ => None
      end
  | String c s' =>
      match mode with
      | Unquoted =>
          if Ascii.eqb c " " then
            match word with
            | Some w => option_map (cons w) (sh_scan Unquoted None s')
            | None => sh_scan Unquoted None s'
            end
          else if Ascii.eqb c "'" then
            sh_scan SingleQuoted (Some (word_so_far word)) s'
          else if Ascii.eqb c (ascii_of_nat 34) then
            sh_scan DoubleQuoted (Some (word_so_far word)) s'
          else if mem_char c _safechars then sh_scan Unquoted (push word c) s'
          else None
      | SingleQuoted =>
          if Ascii.eqb c "'" then sh_scan Unquoted word s'
          else sh_scan SingleQuoted (push word c) s'
      | DoubleQuoted =>
          if Ascii.eqb c (ascii_of_nat 34) then sh_scan Unquoted word s'
          else if Ascii.eqb c (ascii_of_nat 92) || Ascii.eqb c "$"
                  || Ascii.eqb c "`"
          then None
          else sh_scan DoubleQuoted (push word c) s'
      end
  end.

Definition sh_words (line : string) : option (list string) :=
  sh_scan Unquoted None line.

End Py.

(** ** flocker/provision/_install.py *)

Module Install.
Import Py.
Local Open Scope string_scope.

Definition ZFS_REPO : string :=
  "https://s3.amazonaws.com/archive.zfsonlinux.org/"
  ++ "fedora/zfs-release$(rpm -E %dist).noarch.rpm".

Definition CLUSTERHQ_REPO : string :=
  "https://storage.googleapis.com/archive.clusterhq.com/"
  ++ "fedora/clusterhq-release$(rpm -E %dist).noarch.rpm".

(** The two kinds of step, [Run(command=...)] and
    [Put(content=..., path=...)]. *)
Inductive Command :=
| Run (command : string)
| Put (content path : string).

Definition Run_from_args (command_args : list string) : Command :=
  Run (join " " (map shell_quote command_args)).

(** Modelled from the spec: the software-source descriptor [PackageSource]
    is declared in [flocker/provision/_common.py], which is not part of the
    sources at hand; the record holds the attributes the module reads, each
    [None] or a byte string, the build server a URL. *)
Record PackageSource := mkPackageSource
  { os_version : option string;
    branch : option string;
    build_server : string }.

(** *** fabric

    Every remote operation runs under the settings of the enclosing
    [with settings(...)] block. An operation that fails aborts the program
    at that point. *)
Record settings := mkSettings
  { connection_attempts : Z;
    timeout : Z;
    pty : bool;
    host_string : string }.

Inductive FabricCall :=
| fabric_run (env : settings) (command : string)
| fabric_put (env : settings) (content path : string)
| fabric_disconnect_all.

Inductive Outcome :=
| Returned
| Aborted
| Raised (e : Error).

(** [handlers[type(command)](command)] *)
Definition handlers (env : settings) (command : Command) : FabricCall :=
  match command with
  | Run c => fabric_run env c
  | Put content path => fabric_put env content path
  end.

(** The [for] loop of [run_with_fabric]: [succeeds k] tells whether the
    [k]-th remote operation of the session completes. *)
Fixpoint run_commands (succeeds : nat -> bool) (env : settings) (k : nat)
    (commands : list Command) : list FabricCall * bool :=
  match commands with
  | [] => ([], true)
  | command :: rest =>
      if succeeds k then
        let r := run_commands succeeds env (S k) rest in
        (handlers env command :: fst r, snd r)
      else ([handlers env command], false)
  end.

Definition run_with_fabric (succeeds : nat -> bool)
    (username address : string) (commands : list Command)
    : list FabricCall * Outcome :=
  let env :=
    {| connection_attempts := 24; timeout := 5; pty := false;
       host_string := username ++ "@" ++ address |} in
  let r := run_commands succeeds env O commands in
  if snd r then ((fst r ++ [fabric_disconnect_all])%list, Returned)
  else (fst r, Aborted).

Definition task_install_kernel : list Command :=
  [Run (nl
    ++ "UNAME_R=$(uname -r)" ++ nl
    ++ "PV=${UNAME_R%.*}" ++ nl
    ++ "KV=${PV%%-*}" ++ nl
    ++ "SV=${PV##*-}" ++ nl
    ++ "ARCH=$(uname -m)" ++ nl
    ++ "yum install -y https://kojipkgs.fedoraproject.org/packages/kernel/"
    ++ "${KV}/${SV}/${ARCH}/kernel-devel-${UNAME_R}.rpm" ++ nl)].

Definition task_enable_docker : list Command :=
  [Run "systemctl enable docker.service";
   Run "systemctl start docker.service"].

Definition task_disable_firewall : list Command :=
  let rule :=
    ["--add-rule"; "ipv4"; "filter"; "FORWARD"; "0"; "-j"; "ACCEPT"] in
  [Run_from_args (["firewall-cmd"; "--permanent"; "--direct"] ++ rule)%list;
   Run_from_args (["firewall-cmd"; "--direct"] ++ rule)%list].

Definition task_create_flocker_pool_file : list Command :=
  [Run "mkdir -p /var/opt/flocker";
   Run "truncate --size 10G /var/opt/flocker/pool-vdev";
   Run "zpool create flocker /var/opt/flocker/pool-vdev"].

(** The text between the triple quotes of the repository file, as written
    in the source (the first line end is escaped there). *)
Definition repo_literal : string :=
  "            [clusterhq-build]" ++ nl
  ++ "            name=clusterhq-build" ++ nl
  ++ "            baseurl=%s" ++ nl
  ++ "            gpgcheck=0" ++ nl
  ++ "            enabled=0" ++ nl
  ++ "            ".

Section WithUrljoin.
(** [urlparse.urljoin] of the Python library. *)
Variable urljoin : string -> string -> string.

Definition task_install_flocker (package_source : PackageSource)
    (distribution : option string) : Error + list Command :=
  let commands :=
    [Run ("yum install -y " ++ ZFS_REPO);
     Run ("yum install -y " ++ CLUSTERHQ_REPO)] in
  let branch_part : Error + (list Command * list string) :=
    if truthy (branch package_source) then
      match posixpath_join "/results/omnibus/"
              [branch package_source; distribution] with
      | inl e => inl e
      | inr result_path =>
          let base_url := urljoin (build_server package_source) result_path in
          let repo := percent_s (dedent repo_literal) base_url in
          inr ((commands
                ++ [Put repo "/etc/yum.repos.d/clusterhq-build.repo"])%list,
               ["--enablerepo=clusterhq-build"])
      end
    else inr (commands, []) in
  match branch_part with
  | inl e => inl e
  | inr (commands, branch_opt) =>
      let package :=
        match os_version package_source with
        | Some v =>
            if truthy (os_version package_source)
            then "clusterhq-flocker-node-" ++ v
            else "clusterhq-flocker-node"
        | None => "clusterhq-flocker-node"
        end in
      inr (commands
           ++ [Run_from_args
                 (["yum"; "install"] ++ branch_opt ++ ["-y"; package])])%list
  end.

Definition provision (succeeds : nat -> bool) (node username : string)
    (distribution : option string) (package_source : PackageSource)
    : list FabricCall * Outcome :=
  match task_install_flocker package_source distribution with
  | inl e => ([], Raised e)
  | inr install_flocker =>
      let commands :=
        ([] ++ task_install_kernel ++ install_flocker
            ++ task_enable_docker ++ task_disable_firewall
            ++ task_create_flocker_pool_file)%list in
      run_with_fabric succeeds username node commands
  end.
End WithUrljoin.

End Install.

(** * Properties of the snapshot coordinator *)

Section SnapshotterFacts.
Import Snapshots.

(** The two rows of the transition table, as steps of the object. *)
Lemma filesystemChanged_idle (self : ChangeSnapshotter) :
  _fsm self = IDLE ->
  filesystemChanged self =
    ({| _name := _name self;
        _clock := _clock self;
        _fsSnapshots :=
          {| created :=
               created (_fsSnapshots self)
               ++ [mkSnapshotName
                     (datetime_fromtimestamp (seconds (_clock self)) UTC)
                     (_name self)] |};
        _fsm := SNAPSHOTTING |}, inr tt).
Proof.
  destruct self as [n c f s]; simpl; intros ->; reflexivity.
Qed.

Lemma filesystemChanged_snapshotting (self : ChangeSnapshotter) :
  _fsm self = SNAPSHOTTING ->
  filesystemChanged self =
    (self, inl (Machinist.IllegalInput FILESYSTEM_CHANGED)).
Proof.
  destruct self as [n c f s]; simpl; intros ->; reflexivity.
Qed.

(** What an event other than a change notification leaves alone. *)
Lemma react_quiet (ev : Event) (self : ChangeSnapshotter) :
  quiet ev = true ->
  _fsm (fst (react ev self)) = _fsm self
  /\ _name (fst (react ev self)) = _name self
  /\ _fsSnapshots (fst (react ev self)) = _fsSnapshots self
  /\ delayedCalls (_clock (fst (react ev self)))
     = match ev with
       | clock_advance amount =>
           delayedCalls (Clock_advance amount (_clock self))
       | _ => delayedCalls (_clock self)
       end.
Proof.
  destruct ev; simpl; intros H; try discriminate; repeat split.
Qed.

Lemma react_snapshotting (ev : Event) (self : ChangeSnapshotter) :
  _fsm self = SNAPSHOTTING ->
  _fsm (fst (react ev self)) = SNAPSHOTTING
  /\ _name (fst (react ev self)) = _name self
  /\ _fsSnapshots (fst (react ev self)) = _fsSnapshots self.
Proof.
  intros H. destruct ev.
  - simpl. rewrite (filesystemChanged_snapshotting self H). simpl. auto.
  - destruct (react_quiet (clock_advance amount) self eq_refl) as (A & B & C & _).
    rewrite A, B, C. auto.
  - simpl. auto.
  - simpl. auto.
Qed.

Lemma run_app (self : ChangeSnapshotter) (xs ys : list Event) :
  run self (xs ++ ys) = run (run self xs) ys.
Proof.
  revert self. induction xs as [|x xs IH]; intros self; simpl; auto.
Qed.

Lemma run_quiet (evs : list Event) (self : ChangeSnapshotter) :
  forallb quiet evs = true ->
  _fsm (run self evs) = _fsm self
  /\ _name (run self evs) = _name self
  /\ _fsSnapshots (run self evs) = _fsSnapshots self.
Proof.
  revert self. induction evs as [|ev evs IH]; intros self H; simpl in *.
  - auto.
  - apply andb_true_iff in H. destruct H as [Hq Hrest].
    destruct (react_quiet ev self Hq) as (A & B & C & _).
    destruct (IH (fst (react ev self)) Hrest) as (A' & B' & C').
    rewrite A', B', C'. auto.
Qed.

Lemma run_snapshotting (evs : list Event) (self : ChangeSnapshotter) :
  _fsm self = SNAPSHOTTING ->
  _fsm (run self evs) = SNAPSHOTTING
  /\ _name (run self evs) = _name self
  /\ _fsSnapshots (run self evs) = _fsSnapshots self.
Proof.
  revert self. induction evs as [|ev evs IH]; intros self H; simpl.
  - auto.
  - destruct (react_snapshotting ev self H) as (A & B & C).
    destruct (IH (fst (react ev self)) A) as (A' & B' & C').
    rewrite A', B', C'. auto.
Qed.

(** From [IDLE] a run either stays idle and calls nothing, or has made
    exactly one [create] call and sits in [SNAPSHOTTING]. *)
Lemma run_from_idle (evs : list Event) (self : ChangeSnapshotter) :
  _fsm self = IDLE ->
  (_fsm (run self evs) = IDLE
   /\ _fsSnapshots (run self evs) = _fsSnapshots self)
  \/ (_fsm (run self evs) = SNAPSHOTTING
      /\ exists name,
           created (_fsSnapshots (run self evs))
           = created (_fsSnapshots self) ++ [name]).
Proof.
  revert self. induction evs as [|ev evs IH]; intros self H; simpl.
  - left; auto.
  - destruct ev.
    + right. simpl. rewrite (filesystemChanged_idle self H). simpl.
      match goal with
      | |- context [run ?w evs] =>
          destruct (run_snapshotting evs w eq_refl) as (A & _ & C)
      end.
      rewrite A, C. simpl. eauto.
    + destruct (react_quiet (clock_advance amount) self eq_refl)
        as (A & _ & C & _).
      rewrite H in A. destruct (IH _ A) as [[P Q] | [P [n Q]]].
      * left. rewrite P, Q, C. auto.
      * right. rewrite P, Q, C. eauto.
    + simpl. apply IH, H.
    + simpl. apply IH, H.
Qed.

Lemma started_quiet (ev : Event) (self : ChangeSnapshotter) :
  quiet ev = true -> started self ev = 0%nat.
Proof.
  intros H. unfold started.
  destruct (react_quiet ev self H) as (_ & _ & C & _). rewrite C. lia.
Qed.

Lemma started_snapshotting (ev : Event) (self : ChangeSnapshotter) :
  _fsm self = SNAPSHOTTING -> started self ev = 0%nat.
Proof.
  intros H. unfold started.
  destruct (react_snapshotting ev self H) as (_ & _ & C). rewrite C. lia.
Qed.

Lemma started_idle_changed (self : ChangeSnapshotter) :
  _fsm self = IDLE -> started self filesystem_changed = 1%nat.
Proof.
  intros H. unfold started. simpl.
  rewrite (filesystemChanged_idle self H). simpl.
  rewrite length_app. simpl. lia.
Qed.

Lemma outstanding_snapshotting (evs : list Event) :
  forall (self : ChangeSnapshotter) (n : nat),
    _fsm self = SNAPSHOTTING -> (n <= 1)%nat ->
    Forall (fun k => (k <= 1)%nat) (outstanding n self evs).
Proof.
  induction evs as [|ev evs IH]; intros self n H Hn; simpl.
  - constructor.
  - rewrite (started_snapshotting ev self H).
    destruct (react_snapshotting ev self H) as (A & _ & _).
    constructor.
    + lia.
    + apply IH; [exact A | lia].
Qed.

Lemma outstanding_idle (evs : list Event) :
  forall self : ChangeSnapshotter,
    _fsm self = IDLE ->
    Forall (fun k => (k <= 1)%nat) (outstanding 0 self evs).
Proof.
  induction evs as [|ev evs IH]; intros self H; simpl.
  - constructor.
  - destruct (quiet ev) eqn:Hq.
    + rewrite (started_quiet ev self Hq).
      destruct (react_quiet ev self Hq) as (A & _ & _ & _).
      replace (0 - resolves ev + 0)%nat with 0%nat by lia.
      constructor; [lia | apply IH; congruence].
    + destruct ev; try discriminate.
      rewrite (started_idle_changed self H). simpl resolves.
      constructor; [lia |].
      apply outstanding_snapshotting; [| lia].
      simpl. rewrite (filesystemChanged_idle self H). reflexivity.
Qed.

End SnapshotterFacts.

Section SnapshotterExamples.
Import Snapshots.

Example transitions_table :
  _transitions
  = [(IDLE,
      [(FILESYSTEM_CHANGED,
        Machinist.mkTransition [START_SNAPSHOT] SNAPSHOTTING)]);
     (SNAPSHOTTING, [])].
Proof. reflexivity. Qed.

(** The first notification starts an attempt named after the clock and the
    node. *)
Example first_notification :
  filesystemChanged node1
  = ({| _name := "node1";
        _clock := {| seconds := 0; delayedCalls := [] |};
        _fsSnapshots :=
          {| created :=
               [{| timestamp := {| posix := 0; tz := UTC |};
                   node := "node1" |}] |};
        _fsm := SNAPSHOTTING |}, inr tt).
Proof. reflexivity. Qed.

Example outstanding_along_a_run :
  outstanding 0 node1
    [clock_advance 2; filesystem_changed; filesystem_changed;
     snapshot_failed; filesystem_changed]
  = [0; 1; 1; 0; 0]%nat.
Proof. reflexivity. Qed.

End SnapshotterExamples.

Section SnapshotterClaims.
Import Snapshots.

(** C1: for every sequence of events delivered to a fresh ChangeSnapshotter,
    the number of snapshot attempts that are started and not yet resolved
    never exceeds one, and the object makes at most one [create] call in
    all, so no second call can come before the first has resolved. *)
Theorem C1_at_most_one_attempt_outstanding :
  forall (name : string) (clock : Clock) (fs : FilesystemSnapshots)
         (evs : list Event),
    Forall (fun k => (k <= 1)%nat) (outstanding 0 (init name clock fs) evs)
    /\ (List.length (created (_fsSnapshots (run (init name clock fs) evs)))
        <= S (List.length (created fs)))%nat.
Proof.
  intros name clock fs evs. split.
  - apply outstanding_idle. reflexivity.
  - destruct (run_from_idle evs (init name clock fs) eq_refl)
      as [[_ Q] | [_ [n Q]]].
    + rewrite Q. simpl. lia.
    + rewrite Q. simpl. rewrite length_app. simpl. lia.
Qed.

(** C9: in every sequence of events that contains a change notification,
    from the first one on the ChangeSnapshotter is in SNAPSHOTTING whatever
    follows, and the provider has received exactly one [create] call. *)
Theorem C9_snapshotting_forever_one_create :
  forall (name : string) (clock : Clock) (fs : FilesystemSnapshots)
         (pre post : list Event),
    let after := run (init name clock fs) (pre ++ filesystem_changed :: post) in
    _fsm after = SNAPSHOTTING
    /\ List.length (created (_fsSnapshots after))
       = S (List.length (created fs)).
Proof.
  intros name clock fs pre post after. subst after.
  rewrite run_app. simpl run.
  destruct (run_from_idle pre (init name clock fs) eq_refl)
    as [[P Q] | [P [n Q]]].
  - rewrite (filesystemChanged_idle _ P). simpl fst.
    match goal with
    | |- context [run ?w post] =>
        destruct (run_snapshotting post w eq_refl) as (A & _ & C)
    end.
    rewrite A, C. simpl. rewrite Q, length_app. simpl. split; [reflexivity | lia].
  - rewrite (filesystemChanged_snapshotting _ P). simpl fst.
    destruct (run_snapshotting post _ P) as (A & _ & C).
    rewrite A, C, Q, length_app. simpl. split; [reflexivity | lia].
Qed.

(** C6: the name passed to [create] when an attempt starts is built from
    the reading of the clock at that moment (after whatever time has passed
    before the notification), expressed in UTC, and from the node name the
    ChangeSnapshotter was constructed with. *)
Theorem C6_snapshot_name_from_clock_and_node :
  forall (name : string) (clock : Clock) (fs : FilesystemSnapshots)
         (pre post : list Event),
    forallb quiet pre = true ->
    created (_fsSnapshots
               (run (init name clock fs) (pre ++ filesystem_changed :: post)))
    = created fs
      ++ [{| timestamp :=
               {| posix := seconds (_clock (run (init name clock fs) pre));
                  tz := UTC |};
             node := name |}].
Proof.
  intros name clock fs pre post Hq.
  rewrite run_app. simpl run.
  destruct (run_quiet pre (init name clock fs) Hq) as (A & B & C).
  rewrite (filesystemChanged_idle _ A). simpl fst.
  match goal with
  | |- context [run ?w post] =>
      destruct (run_snapshotting post w eq_refl) as (_ & _ & C')
  end.
  rewrite C'. simpl. rewrite B, C. reflexivity.
Qed.

(** The name of an attempt started 7 seconds after the clock read 100. *)
Lemma C6_snapshot_name_witness :
  created (_fsSnapshots
             (run (init "node1" (mkClock 100 []) (mkFs []))
                  ([clock_advance 7]
                   ++ filesystem_changed
                      :: [clock_advance 3; filesystem_changed])))
  = [{| timestamp := {| posix := 107; tz := UTC |}; node := "node1" |}].
Proof.
  exact (C6_snapshot_name_from_clock_and_node
           "node1" (mkClock 100 []) (mkFs [])
           [clock_advance 7] [clock_advance 3; filesystem_changed] eq_refl).
Defined.

(** C2: a second change notification, while the first attempt is
    outstanding, raises [IllegalInput] and leaves the machine in
    SNAPSHOTTING; the table has no state for a pending change. *)
Theorem C2_changed_while_snapshotting_is_illegal :
  let busy := run node1 [filesystem_changed] in
  _fsm busy = SNAPSHOTTING
  /\ filesystemChanged busy
     = (busy, inl (Machinist.IllegalInput FILESYSTEM_CHANGED))
  /\ Dict.get _States_eq_dec SNAPSHOTTING _transitions = Some []
  /\ forall s : _States, s = IDLE \/ s = SNAPSHOTTING.
Proof.
  repeat split. intros s; destruct s; auto.
Qed.

(** C3: of two consecutive calls of [filesystemChanged] the first returns
    and the second raises [IllegalInput]. *)
Theorem C3_second_notification_raises :
  results node1 [filesystem_changed; filesystem_changed]
  = [inr tt; inl (Machinist.IllegalInput FILESYSTEM_CHANGED)].
Proof. reflexivity. Qed.

(** C4: when the Deferred of the outstanding attempt fires with a failure,
    no code of the ChangeSnapshotter runs: the provider still has the one
    [create] call of the first attempt and no retry. *)
Theorem C4_failure_starts_no_retry :
  run node1 [filesystem_changed; snapshot_failed]
  = run node1 [filesystem_changed]
  /\ created (_fsSnapshots (run node1 [filesystem_changed; snapshot_failed]))
     = [{| timestamp := {| posix := 0; tz := UTC |}; node := "node1" |}].
Proof. split; reflexivity. Qed.

(** C5: when the Deferred of the outstanding attempt fires with a result,
    the machine stays in SNAPSHOTTING instead of going back to IDLE. *)
Theorem C5_success_does_not_return_to_idle :
  _fsm (run node1 [filesystem_changed]) = SNAPSHOTTING
  /\ _fsm (run node1 [filesystem_changed; snapshot_succeeded]) = SNAPSHOTTING.
Proof. split; reflexivity. Qed.

(** C7: starting an attempt registers no delayed call with the clock, and
    ten seconds later the provider still has the one [create] call of the
    first attempt: no deadline, no retry. *)
Theorem C7_no_deadline_is_armed :
  delayedCalls (_clock (run node1 [filesystem_changed])) = []
  /\ run node1 [filesystem_changed; clock_advance 10]
     = {| _name := "node1";
          _clock := {| seconds := 10; delayedCalls := [] |};
          _fsSnapshots :=
            {| created :=
                 [{| timestamp := {| posix := 0; tz := UTC |};
                     node := "node1" |}] |};
          _fsm := SNAPSHOTTING |}
  /\ results node1 [filesystem_changed; clock_advance 10] = [inr tt; inr tt].
Proof. repeat split. Qed.

End SnapshotterClaims.

(** * Properties of the provisioning recipe *)

Section InstallFacts.
Import Py Install.
Local Open Scope string_scope.

Lemma posixpath_join_total (p : list string) :
  forall path : string,
    exists r : string, posixpath_join path (map Some p) = inr r.
Proof.
  induction p as [|b p IH]; intros path; simpl.
  - eauto.
  - destruct (startswith b "/"); [apply IH |].
    destruct (is_empty path || endswith_char path "/"); apply IH.
Qed.

(** The repository file, once dedented and filled in. *)
Lemma repo_text (base_url : string) :
  percent_s (dedent repo_literal) base_url
  = "[clusterhq-build]" ++ nl
    ++ "name=clusterhq-build" ++ nl
    ++ "baseurl=" ++ base_url ++ nl
    ++ "gpgcheck=0" ++ nl
    ++ "enabled=0" ++ nl.
Proof.
  replace (dedent repo_literal)
    with ("[clusterhq-build]" ++ nl ++ "name=clusterhq-build" ++ nl
          ++ "baseurl=%s" ++ nl ++ "gpgcheck=0" ++ nl ++ "enabled=0" ++ nl)
    by (vm_compute; reflexivity).
  reflexivity.
Qed.

Lemma truthy_some (o : option string) :
  truthy o = true -> exists s : string, o = Some s /\ is_empty s = false.
Proof.
  destruct o as [s|]; simpl; [| discriminate].
  intros H. exists s. split; [reflexivity |].
  destruct (is_empty s); [discriminate | reflexivity].
Qed.

(** The package the final command installs. *)
Lemma package_name (ps : PackageSource) :
  match os_version ps with
  | Some v =>
      if truthy (os_version ps)
      then "clusterhq-flocker-node-" ++ v
      else "clusterhq-flocker-node"
  | None => "clusterhq-flocker-node"
  end
  = if truthy (os_version ps)
    then "clusterhq-flocker-node" ++ "-"
         ++ match os_version ps with Some v => v | None => EmptyString end
    else "clusterhq-flocker-node".
Proof.
  destruct (os_version ps) as [v|]; simpl; [| reflexivity].
  destruct (is_empty v); reflexivity.
Qed.

Section Recipe.
Variable urljoin : string -> string -> string.

Lemma task_install_flocker_without_branch
    (ps : PackageSource) (distribution : option string) :
  truthy (branch ps) = false ->
  task_install_flocker urljoin ps distribution
  = inr [Run ("yum install -y " ++ ZFS_REPO);
         Run ("yum install -y " ++ CLUSTERHQ_REPO);
         Run_from_args
           ["yum"; "install"; "-y";
            if truthy (os_version ps)
            then "clusterhq-flocker-node" ++ "-"
                 ++ match os_version ps with
                    | Some v => v
                    | None => EmptyString
                    end
            else "clusterhq-flocker-node"]].
Proof.
  intros H. unfold task_install_flocker. rewrite H, package_name. reflexivity.
Qed.

Lemma task_install_flocker_with_branch (ps : PackageSource) (d : string) :
  truthy (branch ps) = true ->
  exists result_path : string,
    posixpath_join "/results/omnibus/" [branch ps; Some d] = inr result_path
    /\ task_install_flocker urljoin ps (Some d)
       = inr [Run ("yum install -y " ++ ZFS_REPO);
              Run ("yum install -y " ++ CLUSTERHQ_REPO);
              Put ("[clusterhq-build]" ++ nl
                   ++ "name=clusterhq-build" ++ nl
                   ++ "baseurl=" ++ urljoin (build_server ps) result_path ++ nl
                   ++ "gpgcheck=0" ++ nl
                   ++ "enabled=0" ++ nl)
                  "/etc/yum.repos.d/clusterhq-build.repo";
              Run_from_args
                ["yum"; "install"; "--enablerepo=clusterhq-build"; "-y";
                 if truthy (os_version ps)
                 then "clusterhq-flocker-node" ++ "-"
                      ++ match os_version ps with
                         | Some v => v
                         | None => EmptyString
                         end
                 else "clusterhq-flocker-node"]].
Proof.
  intros H. destruct (truthy_some _ H) as (b & Hb & _).
  destruct (posixpath_join_total [b; d] "/results/omnibus/") as [r Hr].
  change (map Some [b; d]) with [Some b; Some d] in Hr. rewrite <- Hb in Hr.
  exists r. split; [exact Hr |].
  unfold task_install_flocker. rewrite H, Hr, repo_text, package_name.
  reflexivity.
Qed.

(** With a distribution given the task always yields its list, which
    starts with the two repository packages. *)
Lemma task_install_flocker_returns (ps : PackageSource) (d : string) :
  exists rest : list Command,
    task_install_flocker urljoin ps (Some d)
    = inr (Run ("yum install -y " ++ ZFS_REPO)
           :: Run ("yum install -y " ++ CLUSTERHQ_REPO) :: rest).
Proof.
  destruct (truthy (branch ps)) eqn:H.
  - destruct (task_install_flocker_with_branch ps d H) as (r & _ & E).
    rewrite E. eauto.
  - rewrite (task_install_flocker_without_branch ps (Some d) H). eauto.
Qed.

End Recipe.

(** The loop of [run_with_fabric]. *)
Lemma run_commands_all_succeed (env : settings) (commands : list Command) :
  forall k : nat,
    run_commands (fun _ => true) env k commands
    = (map (handlers env) commands, true).
Proof.
  induction commands as [|c cs IH]; intros k; simpl.
  - reflexivity.
  - rewrite IH. reflexivity.
Qed.

Lemma run_commands_completed (succeeds : nat -> bool) (env : settings)
    (commands : list Command) :
  forall k : nat,
    snd (run_commands succeeds env k commands) = true ->
    fst (run_commands succeeds env k commands) = map (handlers env) commands.
Proof.
  induction commands as [|c cs IH]; intros k; simpl.
  - reflexivity.
  - destruct (succeeds k); simpl; [| discriminate].
    intros H. rewrite (IH _ H). reflexivity.
Qed.

Lemma run_commands_prefix (succeeds : nat -> bool) (env : settings)
    (commands : list Command) :
  forall k : nat,
    exists rest : list FabricCall,
      (fst (run_commands succeeds env k commands) ++ rest)%list
      = map (handlers env) commands.
Proof.
  induction commands as [|c cs IH]; intros k; simpl.
  - exists []. reflexivity.
  - destruct (succeeds k); simpl.
    + destruct (IH (S k)) as [rest E]. exists rest. rewrite E. reflexivity.
    + exists (map (handlers env) cs). reflexivity.
Qed.

Lemma run_with_fabric_prefix (succeeds : nat -> bool)
    (username address : string) (commands : list Command) :
  exists rest : list FabricCall,
    (fst (run_with_fabric succeeds username address commands) ++ rest)%list
    = fst (run_with_fabric (fun _ => true) username address commands).
Proof.
  unfold run_with_fabric. rewrite run_commands_all_succeed. simpl.
  match goal with
  | |- context [run_commands succeeds ?e 0 commands] => set (env := e)
  end.
  destruct (snd (run_commands succeeds env 0 commands)) eqn:H.
  - exists []. simpl. rewrite app_nil_r.
    rewrite (run_commands_completed succeeds env commands 0 H). reflexivity.
  - destruct (run_commands_prefix succeeds env commands 0) as [rest E].
    exists (rest ++ [fabric_disconnect_all])%list. simpl.
    rewrite app_assoc, E. reflexivity.
Qed.

End InstallFacts.

Section InstallExamples.
Import Py Install.
Local Open Scope string_scope.

Example shell_quote_safe : shell_quote "--enablerepo=clusterhq-build"
                           = "--enablerepo=clusterhq-build".
Proof. reflexivity. Qed.

Example shell_quote_empty : shell_quote EmptyString = "''".
Proof. reflexivity. Qed.

Example shell_quote_space : shell_quote "0.1 dev" = "'0.1 dev'".
Proof. reflexivity. Qed.

Example shell_quote_single_quote :
  shell_quote "a'b" = "'a'" ++ dquote ++ "'" ++ dquote ++ "'b'".
Proof. reflexivity. Qed.

Example posixpath_join_relative :
  posixpath_join "/results/omnibus/" [Some "master"; Some "fedora-20"]
  = inr "/results/omnibus/master/fedora-20".
Proof. reflexivity. Qed.

Example posixpath_join_absolute :
  posixpath_join "/results/omnibus/" [Some "/tmp"; Some "fedora-20"]
  = inr "/tmp/fedora-20".
Proof. reflexivity. Qed.

Example posixpath_join_none :
  posixpath_join "/results/omnibus/" [Some "master"; None]
  = inl (AttributeError "startswith").
Proof. reflexivity. Qed.

Example dedent_repo_literal :
  dedent repo_literal
  = "[clusterhq-build]" ++ nl ++ "name=clusterhq-build" ++ nl
    ++ "baseurl=%s" ++ nl ++ "gpgcheck=0" ++ nl ++ "enabled=0" ++ nl.
Proof. vm_compute. reflexivity. Qed.

Example dedent_uneven :
  dedent ("  a" ++ nl ++ "    b" ++ nl ++ " " ++ nl ++ "  c")
  = "a" ++ nl ++ "  b" ++ nl ++ nl ++ "c".
Proof. vm_compute. reflexivity. Qed.

(** The default package source installs the plain package, and needs no
    distribution. *)
Example task_install_flocker_default :
  task_install_flocker (fun base url => base ++ url)
    {| os_version := None; branch := None;
       build_server := "http://build.clusterhq.com/" |} None
  = inr [Run ("yum install -y " ++ ZFS_REPO);
         Run ("yum install -y " ++ CLUSTERHQ_REPO);
         Run "yum install -y clusterhq-flocker-node"].
Proof. reflexivity. Qed.

(** A branch without a distribution fails in [posixpath.join]. *)
Example task_install_flocker_branch_without_distribution :
  task_install_flocker (fun base url => base ++ url)
    {| os_version := None; branch := Some "master";
       build_server := "http://build.clusterhq.com/" |} None
  = inl (AttributeError "startswith").
Proof. reflexivity. Qed.

Example task_install_flocker_versioned_branch :
  task_install_flocker (fun base url => base ++ url)
    {| os_version := Some "0.3.0-1.fc20"; branch := Some "master";
       build_server := "http://build.clusterhq.com" |} (Some "fedora-20")
  = inr [Run ("yum install -y " ++ ZFS_REPO);
         Run ("yum install -y " ++ CLUSTERHQ_REPO);
         Put ("[clusterhq-build]" ++ nl
              ++ "name=clusterhq-build" ++ nl
              ++ "baseurl=http://build.clusterhq.com"
              ++ "/results/omnibus/master/fedora-20" ++ nl
              ++ "gpgcheck=0" ++ nl
              ++ "enabled=0" ++ nl)
             "/etc/yum.repos.d/clusterhq-build.repo";
         Run ("yum install --enablerepo=clusterhq-build -y "
              ++ "clusterhq-flocker-node-0.3.0-1.fc20")].
Proof. vm_compute. reflexivity. Qed.

(** A session whose third operation fails stops there, without
    disconnecting. *)
Example provision_aborts_at_failure :
  let r :=
    provision (fun base url => base ++ url)
      (fun k => negb (Nat.eqb k 2)) "10.0.0.1" "root" (Some "fedora-20")
      {| os_version := None; branch := None;
         build_server := "http://build.clusterhq.com/" |} in
  List.length (fst r) = 3%nat /\ snd r = Aborted.
Proof. vm_compute. split; reflexivity. Qed.

End InstallExamples.

Section InstallClaims.
Import Py Install.
Local Open Scope string_scope.

(** C8: given a host address, a login name, a distribution name and a
    package source, [provision] runs, on [username@node] and in this order,
    the kernel
    headers installation, the commands of [task_install_flocker] (the two
    repository packages first), the two docker service commands, the two
    firewall rules and the three pool file commands, and then disconnects;
    when a remote operation fails the session stops there, so that what ran
    is always an initial part of that sequence. *)
Theorem C8_provision_runs_fixed_order :
  forall (urljoin : string -> string -> string) (node username d : string)
         (package_source : PackageSource),
    let env :=
      {| connection_attempts := 24; timeout := 5; pty := false;
         host_string := username ++ "@" ++ node |} in
    exists flocker_rest : list Command,
      let install_flocker :=
        Run ("yum install -y " ++ ZFS_REPO)
        :: Run ("yum install -y " ++ CLUSTERHQ_REPO) :: flocker_rest in
      let session :=
        ([fabric_run env
            (nl ++ "UNAME_R=$(uname -r)" ++ nl
             ++ "PV=${UNAME_R%.*}" ++ nl
             ++ "KV=${PV%%-*}" ++ nl
             ++ "SV=${PV##*-}" ++ nl
             ++ "ARCH=$(uname -m)" ++ nl
             ++ "yum install -y https://kojipkgs.fedoraproject.org/"
             ++ "packages/kernel/${KV}/${SV}/${ARCH}/"
             ++ "kernel-devel-${UNAME_R}.rpm" ++ nl)]
         ++ map (handlers env) install_flocker
         ++ [fabric_run env "systemctl enable docker.service";
             fabric_run env "systemctl start docker.service"]
         ++ [fabric_run env
               ("firewall-cmd --permanent --direct "
                ++ "--add-rule ipv4 filter FORWARD 0 -j ACCEPT");
             fabric_run env
               "firewall-cmd --direct --add-rule ipv4 filter FORWARD 0 -j ACCEPT"]
         ++ [fabric_run env "mkdir -p /var/opt/flocker";
             fabric_run env "truncate --size 10G /var/opt/flocker/pool-vdev";
             fabric_run env "zpool create flocker /var/opt/flocker/pool-vdev"]
         ++ [fabric_disconnect_all])%list in
      task_install_flocker urljoin package_source (Some d)
      = inr install_flocker
      /\ provision urljoin (fun _ => true) node username (Some d)
           package_source
         = (session, Returned)
      /\ forall succeeds : nat -> bool,
           exists rest : list FabricCall,
             (fst (provision urljoin succeeds node username (Some d)
                     package_source) ++ rest)%list
             = session.
Proof.
  intros urljoin node username d ps env.
  destruct (task_install_flocker_returns urljoin ps d) as [rest E].
  exists rest. cbv zeta.
  assert (Hall :
    provision urljoin (fun _ => true) node username (Some d) ps
    = (([fabric_run env
           (nl ++ "UNAME_R=$(uname -r)" ++ nl
            ++ "PV=${UNAME_R%.*}" ++ nl
            ++ "KV=${PV%%-*}" ++ nl
            ++ "SV=${PV##*-}" ++ nl
            ++ "ARCH=$(uname -m)" ++ nl
            ++ "yum install -y https://kojipkgs.fedoraproject.org/"
            ++ "packages/kernel/${KV}/${SV}/${ARCH}/"
            ++ "kernel-devel-${UNAME_R}.rpm" ++ nl)]
        ++ map (handlers env)
             (Run ("yum install -y " ++ ZFS_REPO)
              :: Run ("yum install -y " ++ CLUSTERHQ_REPO) :: rest)
        ++ [fabric_run env "systemctl enable docker.service";
            fabric_run env "systemctl start docker.service"]
        ++ [fabric_run env
              ("firewall-cmd --permanent --direct "
               ++ "--add-rule ipv4 filter FORWARD 0 -j ACCEPT");
            fabric_run env
              "firewall-cmd --direct --add-rule ipv4 filter FORWARD 0 -j ACCEPT"]
        ++ [fabric_run env "mkdir -p /var/opt/flocker";
            fabric_run env "truncate --size 10G /var/opt/flocker/pool-vdev";
            fabric_run env "zpool create flocker /var/opt/flocker/pool-vdev"]
        ++ [fabric_disconnect_all])%list, Returned)).
  { unfold provision. rewrite E. unfold run_with_fabric.
    rewrite run_commands_all_succeed. cbn [fst snd].
    fold env. f_equal.
    unfold task_install_kernel, task_enable_docker, task_disable_firewall,
      task_create_flocker_pool_file.
    cbn [app map handlers]. rewrite map_app.
    rewrite <- !app_assoc. reflexivity. }
  split; [exact E |]. split; [exact Hall |].
  intros succeeds.
  assert (Hfst := f_equal fst Hall). cbn [fst] in Hfst. rewrite <- Hfst.
  unfold provision. rewrite E.
  apply run_with_fabric_prefix.
Qed.

(** C10: for every package source and distribution name,
    [task_install_flocker] returns a command list whose last command
    installs [clusterhq-flocker-node], with [-<os_version>] appended exactly
    when the package source has an [os_version]; when the package source
    has a branch the list holds the [Put] of the [clusterhq-build]
    repository file and the last command carries
    [--enablerepo=clusterhq-build], and when it has none the list holds no
    [Put] and the last command no such option (and the distribution may
    then be left out). An attribute counts as set when it is neither [None]
    nor empty, the test the code applies. *)
Theorem C10_task_install_flocker_commands :
  forall (urljoin : string -> string -> string)
         (package_source : PackageSource) (d : string),
    let package :=
      if truthy (os_version package_source)
      then "clusterhq-flocker-node" ++ "-"
           ++ match os_version package_source with
              | Some v => v
              | None => EmptyString
              end
      else "clusterhq-flocker-node" in
    exists commands : list Command,
      task_install_flocker urljoin package_source (Some d) = inr commands
      /\ (truthy (branch package_source) = true ->
          exists result_path : string,
            posixpath_join "/results/omnibus/"
              [branch package_source; Some d] = inr result_path
            /\ commands
               = [Run ("yum install -y " ++ ZFS_REPO);
                  Run ("yum install -y " ++ CLUSTERHQ_REPO);
                  Put ("[clusterhq-build]" ++ nl
                       ++ "name=clusterhq-build" ++ nl
                       ++ "baseurl="
                       ++ urljoin (build_server package_source) result_path
                       ++ nl
                       ++ "gpgcheck=0" ++ nl
                       ++ "enabled=0" ++ nl)
                      "/etc/yum.repos.d/clusterhq-build.repo";
                  Run_from_args
                    ["yum"; "install"; "--enablerepo=clusterhq-build"; "-y";
                     package]])
      /\ (truthy (branch package_source) = false ->
          commands
          = [Run ("yum install -y " ++ ZFS_REPO);
             Run ("yum install -y " ++ CLUSTERHQ_REPO);
             Run_from_args ["yum"; "install"; "-y"; package]]
          /\ task_install_flocker urljoin package_source None = inr commands)
      /\ ((exists content path : string, In (Put content path) commands)
          <-> truthy (branch package_source) = true)
      /\ (exists args : list string,
            last commands (Run EmptyString) = Run_from_args args
            /\ last args EmptyString = package
            /\ (In "--enablerepo=clusterhq-build" args
                <-> truthy (branch package_source) = true)).
Proof.
  intros urljoin ps d package. subst package.
  destruct (truthy (branch ps)) eqn:H.
  - destruct (task_install_flocker_with_branch urljoin ps d H) as (r & Hr & E).
    eexists. split; [exact E |]. split; [| split; [| split]].
    + intros _. exists r. split; [exact Hr | reflexivity].
    + discriminate.
    + split; [reflexivity |]. intros _.
      do 2 eexists. right. right. left. reflexivity.
    + eexists. split; [reflexivity |]. split; [reflexivity |].
      split; [reflexivity |]. intros _. right. right. left. reflexivity.
  - eexists. split; [apply task_install_flocker_without_branch; exact H |].
    split; [| split; [| split]].
    + discriminate.
    + intros _. split; [reflexivity |].
      apply task_install_flocker_without_branch; exact H.
    + split; [| discriminate].
      intros (content & path & Hin). exfalso.
      unfold Run_from_args in Hin. simpl in Hin.
      destruct Hin as [Hin | [Hin | [Hin | []]]]; discriminate.
    + eexists. split; [reflexivity |]. split; [reflexivity |].
      split; [| discriminate].
      intros Hin. exfalso.
      destruct Hin as [Hin | [Hin | [Hin | [Hin | []]]]]; try discriminate.
      destruct (truthy (os_version ps)); simpl in Hin; discriminate.
Qed.

End InstallClaims.

(** * Further properties of the provisioning module *)

Section QuotingFacts.
Import Py Install.
Local Open Scope string_scope.

Lemma string_app_assoc (a b c : string) : (a ++ b) ++ c = a ++ b ++ c.
Proof. induction a as [|x a IH]; simpl; [reflexivity | rewrite IH; reflexivity]. Qed.

Lemma string_app_nil_r (a : string) : a ++ EmptyString = a.
Proof. induction a as [|x a IH]; simpl; [reflexivity | rewrite IH; reflexivity]. Qed.

(** A safe character is none of the three the scanner treats apart. *)
Lemma safe_char_plain (c : ascii) :
  mem_char c _safechars = true ->
  Ascii.eqb c " " = false /\ Ascii.eqb c "'" = false
  /\ Ascii.eqb c (ascii_of_nat 34) = false.
Proof.
  intros H. repeat split.
  - destruct (Ascii.eqb_spec c " ") as [-> |]; [discriminate H | reflexivity].
  - destruct (Ascii.eqb_spec c "'") as [-> |]; [discriminate H | reflexivity].
  - destruct (Ascii.eqb_spec c (ascii_of_nat 34)) as [-> |];
      [discriminate H | reflexivity].
Qed.

Lemma sh_scan_safe (w : string) :
  forall (word : option string) (rest : string),
    all_safe w = true -> is_empty w = false ->
    sh_scan Unquoted word (w ++ rest)
    = sh_scan Unquoted (Some (word_so_far word ++ w)) rest.
Proof.
  induction w as [|c w IH]; intros word rest Hs Hne; [discriminate |].
  cbn [all_safe] in Hs. apply andb_true_iff in Hs. destruct Hs as [Hc Hw].
  destruct (safe_char_plain c Hc) as (A & B & C).
  cbn [append sh_scan]. rewrite A, B, C, Hc.
  destruct w as [|c' w'].
  - simpl. reflexivity.
  - rewrite (IH (push word c) rest Hw eq_refl). unfold push. cbn [word_so_far].
    rewrite string_app_assoc. reflexivity.
Qed.

Lemma sh_scan_single_quoted (w : string) :
  forall (word rest : string),
    sh_scan SingleQuoted (Some word)
      (replace_char "'" ("'" ++ dquote ++ "'" ++ dquote ++ "'") w ++ rest)
    = sh_scan SingleQuoted (Some (word ++ w)) rest.
Proof.
  induction w as [|c w IH]; intros word rest.
  - simpl. rewrite string_app_nil_r. reflexivity.
  - cbn [replace_char]. destruct (Ascii.eqb_spec c "'") as [-> | Hc].
    + rewrite string_app_assoc. cbn. rewrite IH.
      rewrite string_app_assoc. reflexivity.
    + cbn [append sh_scan].
      destruct (Ascii.eqb_spec c "'") as [E | _]; [contradiction |].
      unfold push. cbn [word_so_far]. rewrite IH.
      rewrite string_app_assoc. reflexivity.
Qed.

(** Reading one quoted argument gives the argument. *)
Lemma sh_scan_shell_quote (w rest : string) :
  sh_scan Unquoted None (shell_quote w ++ rest) = sh_scan Unquoted (Some w) rest.
Proof.
  unfold shell_quote. destruct (all_safe w) eqn:Hs.
  - destruct (is_empty w) eqn:He.
    + destruct w; [reflexivity | discriminate].
    + rewrite (sh_scan_safe w None rest Hs He). reflexivity.
  - rewrite string_app_assoc. cbn [append sh_scan].
    change (Ascii.eqb "'" " ") with false. change (Ascii.eqb "'" "'") with true.
    cbn iota. cbn [word_so_far].
    rewrite string_app_assoc, sh_scan_single_quoted. reflexivity.
Qed.

Lemma sh_words_join_shell_quote (args : list string) :
  sh_words (join " " (map shell_quote args)) = Some args.
Proof.
  unfold sh_words. induction args as [|a rest IH].
  - reflexivity.
  - destruct rest as [|b rest'].
    + cbn [map join]. rewrite <- (string_app_nil_r (shell_quote a)).
      rewrite sh_scan_shell_quote. reflexivity.
    + change (join " " (map shell_quote (a :: b :: rest')))
        with (shell_quote a ++ " " ++ join " " (map shell_quote (b :: rest'))).
      rewrite sh_scan_shell_quote. cbn [append sh_scan].
      change (Ascii.eqb " " " ") with true. cbn iota.
      rewrite IH. reflexivity.
Qed.

End QuotingFacts.

Section QuotingProperties.
Import Py Install.
Local Open Scope string_scope.

(** X1: the command line built by [Run.from_args] reads back, by the
    shell's quoting rules, as exactly the arguments it was built from,
    whatever characters they hold. *)
Theorem from_args_reads_back :
  forall args : list string,
    exists line : string,
      Run_from_args args = Run line /\ sh_words line = Some args.
Proof.
  intros args. eexists. split; [reflexivity |].
  apply sh_words_join_shell_quote.
Qed.

(** X2: two different argument lists never give the same command. *)
Theorem from_args_distinct :
  forall a b : list string,
    a <> b -> Run_from_args a <> Run_from_args b.
Proof.
  intros a b Hab H. apply Hab. unfold Run_from_args in H.
  injection H as H.
  assert (E : sh_words (join " " (map shell_quote a))
              = sh_words (join " " (map shell_quote b)))
    by (rewrite H; reflexivity).
  rewrite !sh_words_join_shell_quote in E. injection E as E. exact E.
Qed.

(** One argument with a space in it against two arguments. *)
Lemma from_args_distinct_witness :
  Run_from_args ["rm"; "a b"] <> Run_from_args ["rm"; "a"; "b"].
Proof.
  apply (from_args_distinct ["rm"; "a b"] ["rm"; "a"; "b"]). discriminate.
Defined.

End QuotingProperties.

Section FabricFacts.
Import Py Install.
Local Open Scope string_scope.

Lemma run_commands_succeed_from (succeeds : nat -> bool) (env : settings)
    (commands : list Command) :
  forall k : nat,
    (forall j : nat,
        (k <= j < k + List.length commands)%nat -> succeeds j = true) ->
    run_commands succeeds env k commands = (map (handlers env) commands, true).
Proof.
  induction commands as [|c cs IH]; intros k H; simpl.
  - reflexivity.
  - rewrite (H k) by (simpl; lia).
    rewrite (IH (S k)) by (intros j Hj; apply H; simpl; lia).
    reflexivity.
Qed.

Lemma run_commands_fail_at (succeeds : nat -> bool) (env : settings)
    (commands : list Command) :
  forall k i : nat,
    (i < List.length commands)%nat ->
    succeeds (k + i)%nat = false ->
    (forall j : nat, (j < i)%nat -> succeeds (k + j)%nat = true) ->
    run_commands succeeds env k commands
    = (map (handlers env) (firstn (S i) commands), false).
Proof.
  induction commands as [|c cs IH]; intros k i Hi Hf Hok; simpl in Hi.
  - lia.
  - cbn [run_commands]. destruct i as [|i].
    + rewrite Nat.add_0_r in Hf. rewrite Hf. destruct cs; reflexivity.
    + rewrite <- (Nat.add_0_r k). rewrite (Hok 0%nat) by lia.
      rewrite Nat.add_0_r.
      rewrite (IH (S k) i).
      * reflexivity.
      * lia.
      * rewrite <- Hf. f_equal. lia.
      * intros j Hj. rewrite <- (Hok (S j)) by lia. f_equal. lia.
Qed.

Lemma handlers_never_disconnect (env : settings) (commands : list Command) :
  ~ In fabric_disconnect_all (map (handlers env) commands).
Proof.
  induction commands as [|c cs IH]; simpl.
  - tauto.
  - intros [H | H]; [destruct c; discriminate | exact (IH H)].
Qed.

End FabricFacts.

Section FabricProperties.
Import Py Install.
Local Open Scope string_scope.

(** X3: when every remote operation succeeds, [run_with_fabric] performs
    one operation per command, in the order of the list, each under the
    settings of the session with host string [username@address], and ends
    with one [disconnect_all]. *)
Theorem run_with_fabric_success :
  forall (succeeds : nat -> bool) (username address : string)
         (commands : list Command),
    (forall k : nat, (k < List.length commands)%nat -> succeeds k = true) ->
    run_with_fabric succeeds username address commands
    = ((map (handlers
               {| connection_attempts := 24; timeout := 5; pty := false;
                  host_string := username ++ "@" ++ address |})
            commands
        ++ [fabric_disconnect_all])%list, Returned).
Proof.
  intros succeeds username address commands H.
  unfold run_with_fabric.
  rewrite run_commands_succeed_from by (intros j Hj; apply H; lia).
  reflexivity.
Qed.

Lemma run_with_fabric_success_witness :
  run_with_fabric (fun k => Nat.ltb k 2) "root" "10.0.0.1"
    [Run "uname -r"; Put "enabled=0" "/etc/yum.repos.d/x.repo"]
  = ([fabric_run (mkSettings 24 5 false "root@10.0.0.1") "uname -r";
      fabric_put (mkSettings 24 5 false "root@10.0.0.1")
        "enabled=0" "/etc/yum.repos.d/x.repo";
      fabric_disconnect_all], Returned).
Proof.
  apply (run_with_fabric_success (fun k => Nat.ltb k 2) "root" "10.0.0.1"
           [Run "uname -r"; Put "enabled=0" "/etc/yum.repos.d/x.repo"]).
  intros k Hk. simpl in Hk. apply Nat.ltb_lt. exact Hk.
Defined.

(** X4: when the operation of index [k] is the first to fail,
    [run_with_fabric] has performed the operations of the first [k + 1]
    commands and nothing more: the commands after it are not run and
    [disconnect_all] is not called. *)
Theorem run_with_fabric_stops_at_failure :
  forall (succeeds : nat -> bool) (username address : string)
         (commands : list Command) (k : nat),
    (k < List.length commands)%nat ->
    succeeds k = false ->
    (forall j : nat, (j < k)%nat -> succeeds j = true) ->
    run_with_fabric succeeds username address commands
    = (map (handlers
              {| connection_attempts := 24; timeout := 5; pty := false;
                 host_string := username ++ "@" ++ address |})
           (firstn (S k) commands), Aborted)
    /\ ~ In fabric_disconnect_all
           (fst (run_with_fabric succeeds username address commands)).
Proof.
  intros succeeds username address commands k Hk Hf Hok.
  assert (E : run_with_fabric succeeds username address commands
              = (map (handlers
                        {| connection_attempts := 24; timeout := 5;
                           pty := false;
                           host_string := username ++ "@" ++ address |})
                     (firstn (S k) commands), Aborted)).
  { unfold run_with_fabric.
    rewrite (run_commands_fail_at succeeds _ commands 0 k Hk Hf Hok).
    reflexivity. }
  split; [exact E |]. rewrite E. apply handlers_never_disconnect.
Qed.

Lemma run_with_fabric_stops_at_failure_witness :
  run_with_fabric (fun k => negb (Nat.eqb k 1)) "root" "10.0.0.1"
    [Run "true"; Run "false"; Run "echo unreachable"]
  = ([fabric_run (mkSettings 24 5 false "root@10.0.0.1") "true";
      fabric_run (mkSettings 24 5 false "root@10.0.0.1") "false"], Aborted)
  /\ ~ In fabric_disconnect_all
         (fst (run_with_fabric (fun k => negb (Nat.eqb k 1)) "root" "10.0.0.1"
                 [Run "true"; Run "false"; Run "echo unreachable"])).
Proof.
  apply (run_with_fabric_stops_at_failure
           (fun k => negb (Nat.eqb k 1)) "root" "10.0.0.1"
           [Run "true"; Run "false"; Run "echo unreachable"] 1%nat).
  - simpl. lia.
  - reflexivity.
  - intros j Hj. assert (j = 0%nat) as -> by lia. reflexivity.
Defined.

End FabricProperties.

Section RecipeFacts.
Import Py Install.
Local Open Scope string_scope.

Lemma endswith_char_app (a b : string) (c : ascii) :
  is_empty b = false -> endswith_char (a ++ b) c = endswith_char b c.
Proof.
  intros Hb. induction a as [|x a IH]; [reflexivity |].
  cbn [append endswith_char]. rewrite IH.
  destruct (a ++ b) eqn:E; [| reflexivity].
  destruct a; destruct b; simpl in E; discriminate.
Qed.

Lemma all_safe_app (a b : string) :
  all_safe (a ++ b) = all_safe a && all_safe b.
Proof.
  induction a as [|x a IH]; [reflexivity |].
  cbn [append all_safe]. rewrite IH, andb_assoc. reflexivity.
Qed.

Lemma shell_quote_safe_id (s : string) :
  all_safe s = true -> is_empty s = false -> shell_quote s = s.
Proof. intros Hs He. unfold shell_quote. rewrite Hs, He. reflexivity. Qed.

(** The path joined for a branch, whatever the branch, when the
    distribution is missing. *)
Lemma posixpath_join_missing (b : string) :
  posixpath_join "/results/omnibus/" [Some b; None]
  = inl (AttributeError "startswith").
Proof.
  cbn [posixpath_join]. destruct (startswith b "/"); [reflexivity |].
  destruct (is_empty "/results/omnibus/" || endswith_char "/results/omnibus/" "/");
    reflexivity.
Qed.

Lemma posixpath_join_ordinary (b d : string) :
  is_empty b = false ->
  startswith b "/" = false -> endswith_char b "/" = false ->
  startswith d "/" = false ->
  posixpath_join "/results/omnibus/" [Some b; Some d]
  = inr ("/results/omnibus/" ++ b ++ "/" ++ d).
Proof.
  intros Hb Hb1 Hb2 Hd. cbn [posixpath_join]. rewrite Hb1.
  change (is_empty "/results/omnibus/" || endswith_char "/results/omnibus/" "/")
    with true. cbn iota. rewrite Hd.
  rewrite (endswith_char_app "/results/omnibus/" b "/" Hb), Hb2.
  change (is_empty ("/results/omnibus/" ++ b)) with false. cbn [orb].
  rewrite string_app_assoc. reflexivity.
Qed.

Lemma posixpath_join_absolute_last (b d : string) :
  startswith d "/" = true ->
  posixpath_join "/results/omnibus/" [Some b; Some d] = inr d.
Proof.
  intros Hd. cbn [posixpath_join]. destruct (startswith b "/").
  - rewrite Hd. reflexivity.
  - destruct (is_empty "/results/omnibus/" || endswith_char "/results/omnibus/" "/");
      rewrite Hd; reflexivity.
Qed.

End RecipeFacts.

Section RecipeProperties.
Import Py Install.
Local Open Scope string_scope.

(** X5: with a branch set and no distribution given (the default),
    [task_install_flocker] raises instead of returning a list, and
    [provision] then raises before any remote operation: nothing is run on
    the node and no connection is closed. *)
Theorem branch_without_distribution_raises :
  forall (urljoin : string -> string -> string) (package_source : PackageSource),
    truthy (branch package_source) = true ->
    task_install_flocker urljoin package_source None
    = inl (AttributeError "startswith")
    /\ forall (succeeds : nat -> bool) (node username : string),
         provision urljoin succeeds node username None package_source
         = ([], Raised (AttributeError "startswith")).
Proof.
  intros urljoin ps H.
  assert (E : task_install_flocker urljoin ps None
              = inl (AttributeError "startswith")).
  { destruct (truthy_some _ H) as (b & Hb & _).
    unfold task_install_flocker. rewrite H, Hb, posixpath_join_missing.
    reflexivity. }
  split; [exact E |]. intros succeeds node username.
  unfold provision. rewrite E. reflexivity.
Qed.

Lemma branch_without_distribution_raises_witness :
  task_install_flocker (fun base url => base ++ url)
    {| os_version := None; branch := Some "master";
       build_server := "http://build.clusterhq.com/" |} None
  = inl (AttributeError "startswith")
  /\ forall (succeeds : nat -> bool) (node username : string),
       provision (fun base url => base ++ url) succeeds node username None
         {| os_version := None; branch := Some "master";
            build_server := "http://build.clusterhq.com/" |}
       = ([], Raised (AttributeError "startswith")).
Proof.
  exact (branch_without_distribution_raises (fun base url => base ++ url)
           {| os_version := None; branch := Some "master";
              build_server := "http://build.clusterhq.com/" |} eq_refl).
Defined.

(** X6: for a branch and a distribution that are plain names (the branch
    not empty, neither starting with a slash, the branch not ending with
    one), the repository file put on the node has as [baseurl] the build
    server joined with [/results/omnibus/<branch>/<distribution>]. *)
Theorem repo_baseurl_of_plain_names :
  forall (urljoin : string -> string -> string) (package_source : PackageSource)
         (b d : string),
    branch package_source = Some b ->
    is_empty b = false ->
    startswith b "/" = false ->
    endswith_char b "/" = false ->
    startswith d "/" = false ->
    exists commands : list Command,
      task_install_flocker urljoin package_source (Some d) = inr commands
      /\ In (Put ("[clusterhq-build]" ++ nl
                  ++ "name=clusterhq-build" ++ nl
                  ++ "baseurl="
                  ++ urljoin (build_server package_source)
                       ("/results/omnibus/" ++ b ++ "/" ++ d)
                  ++ nl
                  ++ "gpgcheck=0" ++ nl
                  ++ "enabled=0" ++ nl)
                 "/etc/yum.repos.d/clusterhq-build.repo") commands.
Proof.
  intros urljoin ps b d Hb He Hb1 Hb2 Hd.
  assert (Ht : truthy (branch ps) = true) by (rewrite Hb; simpl; rewrite He; reflexivity).
  destruct (task_install_flocker_with_branch urljoin ps d Ht) as (r & Hr & E).
  rewrite Hb, (posixpath_join_ordinary b d He Hb1 Hb2 Hd) in Hr.
  injection Hr as <-.
  eexists. split; [exact E |]. right. right. left. reflexivity.
Qed.

Lemma repo_baseurl_of_plain_names_witness :
  exists commands : list Command,
    task_install_flocker (fun base url => base ++ url)
      {| os_version := None; branch := Some "master";
         build_server := "http://build.clusterhq.com" |} (Some "fedora-20")
    = inr commands
    /\ In (Put ("[clusterhq-build]" ++ nl
                ++ "name=clusterhq-build" ++ nl
                ++ "baseurl="
                ++ ("http://build.clusterhq.com"
                    ++ "/results/omnibus/" ++ "master" ++ "/" ++ "fedora-20")
                ++ nl
                ++ "gpgcheck=0" ++ nl
                ++ "enabled=0" ++ nl)
               "/etc/yum.repos.d/clusterhq-build.repo") commands.
Proof.
  exact (repo_baseurl_of_plain_names (fun base url => base ++ url)
           {| os_version := None; branch := Some "master";
              build_server := "http://build.clusterhq.com" |}
           "master" "fedora-20" eq_refl eq_refl eq_refl eq_refl eq_refl).
Defined.

(** X7: when the distribution starts with a slash it replaces the whole
    path: the [baseurl] of the repository file is the build server joined
    with the distribution alone, and neither [/results/omnibus/] nor the
    branch appears in the joined path. *)
Theorem repo_baseurl_of_absolute_distribution :
  forall (urljoin : string -> string -> string) (package_source : PackageSource)
         (d : string),
    truthy (branch package_source) = true ->
    startswith d "/" = true ->
    exists commands : list Command,
      task_install_flocker urljoin package_source (Some d) = inr commands
      /\ In (Put ("[clusterhq-build]" ++ nl
                  ++ "name=clusterhq-build" ++ nl
                  ++ "baseurl=" ++ urljoin (build_server package_source) d
                  ++ nl
                  ++ "gpgcheck=0" ++ nl
                  ++ "enabled=0" ++ nl)
                 "/etc/yum.repos.d/clusterhq-build.repo") commands.
Proof.
  intros urljoin ps d Ht Hd.
  destruct (task_install_flocker_with_branch urljoin ps d Ht) as (r & Hr & E).
  destruct (truthy_some _ Ht) as (b & Hb & _).
  rewrite Hb, (posixpath_join_absolute_last b d Hd) in Hr.
  injection Hr as <-.
  eexists. split; [exact E |]. right. right. left. reflexivity.
Qed.

Lemma repo_baseurl_of_absolute_distribution_witness :
  exists commands : list Command,
    task_install_flocker (fun base url => base ++ url)
      {| os_version := None; branch := Some "master";
         build_server := "http://build.clusterhq.com" |} (Some "/fedora-20")
    = inr commands
    /\ In (Put ("[clusterhq-build]" ++ nl
                ++ "name=clusterhq-build" ++ nl
                ++ "baseurl=" ++ ("http://build.clusterhq.com" ++ "/fedora-20")
                ++ nl
                ++ "gpgcheck=0" ++ nl
                ++ "enabled=0" ++ nl)
               "/etc/yum.repos.d/clusterhq-build.repo") commands.
Proof.
  exact (repo_baseurl_of_absolute_distribution (fun base url => base ++ url)
           {| os_version := None; branch := Some "master";
              build_server := "http://build.clusterhq.com" |}
           "/fedora-20" eq_refl eq_refl).
Defined.

(** X8: whatever the [os_version] holds, the last command of
    [task_install_flocker] reads back, by the shell's quoting rules, as
    [yum install], the repository option when a branch is set, [-y] and the
    package name as one word: the version can add no word to the command. *)
Theorem install_command_words :
  forall (urljoin : string -> string -> string) (package_source : PackageSource)
         (d : string),
    exists (commands : list Command) (line : string),
      task_install_flocker urljoin package_source (Some d) = inr commands
      /\ last commands (Run EmptyString) = Run line
      /\ sh_words line
         = Some (["yum"; "install"]
                 ++ (if truthy (branch package_source)
                     then ["--enablerepo=clusterhq-build"] else [])
                 ++ ["-y";
                     if truthy (os_version package_source)
                     then ("clusterhq-flocker-node" ++ "-"
                           ++ match os_version package_source with
                              | Some v => v
                              | None => EmptyString
                              end)%string
                     else "clusterhq-flocker-node"])%list.
Proof.
  intros urljoin ps d. destruct (truthy (branch ps)) eqn:H.
  - destruct (task_install_flocker_with_branch urljoin ps d H) as (r & _ & E).
    do 2 eexists. split; [exact E |]. split; [reflexivity |].
    apply sh_words_join_shell_quote.
  - do 2 eexists.
    split; [apply task_install_flocker_without_branch; exact H |].
    split; [reflexivity |]. apply sh_words_join_shell_quote.
Qed.

(** X9: when the [os_version] is made of safe characters only, the last
    command is the plain text [yum install ... -y
    clusterhq-flocker-node-<os_version>], with nothing quoted. *)
Theorem install_command_verbatim :
  forall (urljoin : string -> string -> string) (package_source : PackageSource)
         (d v : string),
    os_version package_source = Some v ->
    is_empty v = false ->
    all_safe v = true ->
    exists commands : list Command,
      task_install_flocker urljoin package_source (Some d) = inr commands
      /\ last commands (Run EmptyString)
         = Run ("yum install "
                ++ (if truthy (branch package_source)
                    then "--enablerepo=clusterhq-build " else EmptyString)
                ++ "-y clusterhq-flocker-node-" ++ v).
Proof.
  intros urljoin ps d v Hv He Hs.
  assert (Hq : shell_quote ("clusterhq-flocker-node" ++ "-" ++ v)
               = "clusterhq-flocker-node-" ++ v).
  { apply shell_quote_safe_id; [| reflexivity].
    change ("clusterhq-flocker-node" ++ "-" ++ v)
      with ("clusterhq-flocker-node-" ++ v).
    rewrite all_safe_app, Hs. reflexivity. }
  assert (Ht : truthy (os_version ps) = true)
    by (rewrite Hv; simpl; rewrite He; reflexivity).
  destruct (truthy (branch ps)) eqn:H.
  - destruct (task_install_flocker_with_branch urljoin ps d H) as (r & _ & E).
    eexists. split; [exact E |].
    rewrite Ht, Hv. cbn [last]. unfold Run_from_args. cbn [map join].
    rewrite Hq. reflexivity.
  - eexists.
    split; [apply task_install_flocker_without_branch; exact H |].
    rewrite Ht, Hv. cbn [last]. unfold Run_from_args. cbn [map join].
    rewrite Hq. reflexivity.
Qed.

Lemma install_command_verbatim_witness :
  exists commands : list Command,
    task_install_flocker (fun base url => base ++ url)
      {| os_version := Some "0.3.0-1.fc20"; branch := None;
         build_server := "http://build.clusterhq.com/" |} (Some "fedora-20")
    = inr commands
    /\ last commands (Run EmptyString)
       = Run ("yum install " ++ EmptyString
              ++ "-y clusterhq-flocker-node-" ++ "0.3.0-1.fc20").
Proof.
  exact (install_command_verbatim (fun base url => base ++ url)
           {| os_version := Some "0.3.0-1.fc20"; branch := None;
              build_server := "http://build.clusterhq.com/" |}
           "fedora-20" "0.3.0-1.fc20" eq_refl eq_refl eq_refl).
Defined.

End RecipeProperties.

(** * Further properties of the snapshot coordinator *)

Section SnapshotterProperties.
Import Snapshots.

Lemma run_snapshotting_drops_notifications (evs : list Event) :
  forall self : ChangeSnapshotter,
    _fsm self = SNAPSHOTTING ->
    run self evs = run self (filter quiet evs).
Proof.
  induction evs as [|ev evs IH]; intros self H; [reflexivity |].
  destruct ev; cbn [filter quiet run].
  - cbn [react]. rewrite (filesystemChanged_snapshotting self H). cbn [fst].
    apply IH, H.
  - apply IH.
    destruct (react_snapshotting (clock_advance amount) self H) as (A & _).
    exact A.
  - apply IH. exact H.
  - apply IH. exact H.
Qed.

Lemma after_notification_snapshotting (self : ChangeSnapshotter) :
  _fsm (fst (filesystemChanged self)) = SNAPSHOTTING.
Proof.
  destruct (_fsm self) eqn:H.
  - rewrite (filesystemChanged_idle self H). reflexivity.
  - rewrite (filesystemChanged_snapshotting self H). exact H.
Qed.



(** X11: once a change notification has been delivered, every later one is
    lost: leaving all later notifications out of the sequence of events
    gives the same object, with the same provider calls and the same
    state. *)
Theorem later_notifications_are_lost :
  forall (self : ChangeSnapshotter) (pre post : list Event),
    run self (pre ++ filesystem_changed :: post)
    = run self (pre ++ filesystem_changed :: filter quiet post).
Proof.
  intros self pre post. rewrite !run_app. cbn [run react].
  apply run_snapshotting_drops_notifications.
  apply after_notification_snapshotting.
Qed.

End SnapshotterProperties.

Section RecipeIndependence.
Import Py Install.
Local Open Scope string_scope.

(** X12: for a package source without a branch the distribution and the
    build server are never consulted: two calls of [provision] that agree
    on the node, the user, the [os_version] and the outcomes of the remote
    operations behave the same, whatever the distributions, the build
    servers and the URL joining are. *)
Theorem provision_without_branch_ignores_distribution :
  forall (urljoin urljoin' : string -> string -> string)
         (succeeds : nat -> bool) (node username : string)
         (distribution distribution' : option string)
         (package_source package_source' : PackageSource),
    truthy (branch package_source) = false ->
    truthy (branch package_source') = false ->
    os_version package_source = os_version package_source' ->
    provision urljoin succeeds node username distribution package_source
    = provision urljoin' succeeds node username distribution' package_source'.
Proof.
  intros urljoin urljoin' succeeds node username d d' ps ps' H H' Hv.
  unfold provision.
  rewrite (task_install_flocker_without_branch urljoin ps d H).
  rewrite (task_install_flocker_without_branch urljoin' ps' d' H').
  rewrite Hv. reflexivity.
Qed.

Lemma provision_without_branch_ignores_distribution_witness :
  provision (fun base url => base ++ url) (fun _ => true) "10.0.0.1" "root"
    None
    {| os_version := Some "0.3.0"; branch := None;
       build_server := "http://build.clusterhq.com/" |}
  = provision (fun base url => url) (fun _ => true) "10.0.0.1" "root"
      (Some "fedora-20")
      {| os_version := Some "0.3.0"; branch := Some EmptyString;
         build_server := "http://example.invalid/" |}.
Proof.
  exact (provision_without_branch_ignores_distribution
           (fun base url => base ++ url) (fun base url => url)
           (fun _ => true) "10.0.0.1" "root" None (Some "fedora-20")
           {| os_version := Some "0.3.0"; branch := None;
              build_server := "http://build.clusterhq.com/" |}
           {| os_version := Some "0.3.0"; branch := Some EmptyString;
              build_server := "http://example.invalid/" |}
           eq_refl eq_refl eq_refl).
Defined.

End RecipeIndependence.
